(** * RebirthItemTracker: [game_objects/item.py]

    A shallow embedding of the [Item] and [ItemInfo] classes and the
    properties of their flag serialization, metadata lookup, description
    generation and reconstruction from persisted state.

    Python dictionaries are [gmap]s, byte strings ([str]) are [string]s,
    exceptions are the [Err] results of an error monad, and the error log
    is passed explicitly. *)

From Stdlib Require Import String Ascii ZArith Bool.
From stdpp Require Import gmap strings list.

Open Scope string_scope.

(** ** The fragment of Python the module relies on *)

Module Py.

(** Values that metadata records and class namespaces hold: [None],
    booleans, integers, strings, lists, dictionaries (as their items), and
    function or type objects (opaque, named by their qualified name). *)
#[warnings="-register-all"] Inductive val : Type :=
| VNone
| VBool (b : bool)
| VInt (z : Z)
| VStr (s : string)
| VList (l : list val)
| VDict (items : list (string * val))
| VObj (qualname : string).

(** The exceptions the module can raise. *)
Inductive exn : Type :=
| IndexError
| KeyError (key : string)
| TypeError
| AttributeError (name : string).

Inductive result (A : Type) : Type :=
| Ok (a : A)
| Err (e : exn).
Arguments Ok {A} a.
Arguments Err {A} e.

#[global] Instance result_ret : MRet result := fun _ a => Ok a.
#[global] Instance result_bind : MBind result := fun _ _ f m =>
  match m with
  | Ok a => f a
  | Err e => Err e
  end.

Definition raises {A} (m : result A) : bool :=
  match m with
  | Ok _ => false
  | Err _ => true
  end.

(** [bool(v)], the test of [if v:] and [not v]. *)
Definition truthy (v : val) : bool :=
  match v with
  | VNone => false
  | VBool b => b
  | VInt z => negb (z =? 0)%Z
  | VStr s => negb (String.eqb s "")
  | VList l => match l with [] => false | _ => true end
  | VDict d => match d with [] => false | _ => true end
  | VObj _ => true
  end.

(** [v + s] for a string literal [s]: concatenation when [v] is a string,
    a [TypeError] for every other operand type. *)
Definition add_str (v : val) (s : string) : result string :=
  match v with
  | VStr a => Ok (a +:+ s)
  | _ => Err TypeError
  end.

(** [s + v] for a string [s]. *)
Definition str_add (s : string) (v : val) : result string :=
  match v with
  | VStr a => Ok (s +:+ a)
  | _ => Err TypeError
  end.

(** [sub in s] on strings: [sub] occurs in [s] as a contiguous substring. *)
Fixpoint str_in (sub s : string) : bool :=
  String.prefix sub s ||
  match s with
  | EmptyString => false
  | String _ s' => str_in sub s'
  end.

(** [s[0]]: the first character, as a string of length one. *)
Definition index0 (s : string) : result string :=
  match s with
  | EmptyString => Err IndexError
  | String c _ => Ok (String c EmptyString)
  end.

(** [s[1:]]: a slice never fails. *)
Definition slice1 (s : string) : string :=
  match s with
  | EmptyString => EmptyString
  | String _ s' => s'
  end.

(** [d[k]] on a plain dictionary. *)
Definition dict_getitem {V} (d : gmap string V) (k : string) : result V :=
  match d !! k with
  | Some v => Ok v
  | None => Err (KeyError k)
  end.

(** [k in d] on a dictionary. *)
Definition dict_contains {V} (d : gmap string V) (k : string) : bool :=
  bool_decide (is_Some (d !! k)).

(** [s.endswith(suffix)]. *)
Definition endswith (s suffix : string) : bool :=
  let n := String.length s in
  let k := String.length suffix in
  (k <=? n)%nat && String.eqb (String.substring (n - k) k s) suffix.

(** [s[:-k]] for [k > 0]: everything but the last [k] characters, and the
    empty string when [s] is shorter than [k]. *)
Definition drop_last (k : nat) (s : string) : string :=
  String.substring 0 (String.length s - k) s.

End Py.

Import Py.

(** ** [class ItemInfo(dict)] *)

Module ItemInfo.

(** An [ItemInfo] is a copy of the record it is built from, and
    [self.__dict__ = self] makes that mapping the instance namespace. *)
Definition t : Type := gmap string val.

Definition __init__ (values : gmap string val) : t := values.

Definition transform_list : list string :=
  ["guppy"; "bob"; "conjoined"; "funguy"; "leviathan"; "ohcrap"; "seraphim";
   "spun"; "yesmother"; "superbum"; "beelzebub"; "bookworm"; "spiderbaby"].

Definition stat_list : list string :=
  ["dmg"; "delay"; "speed"; "shot_speed"; "range"; "height"; "tears"].

(** The stats and properties the docstring of the class lists, and the
    free text that the description reads. *)
Definition documented_stats : list string :=
  ["dmg"; "dmg_x"; "delay"; "delay_x"; "health"; "speed"; "shot_speed";
   "range"; "height"; "tears"; "soul_hearts"; "sin_hearts"].

Definition documented_properties : list string :=
  transform_list ++
  ["name"; "shown"; "space"; "health_only"; "in_summary"; "summary_name";
   "summary_condition"].

Definition documented_names : list string :=
  documented_stats ++ documented_properties ++ ["text"].

(** The namespace of the class body, in the order of the source (the text
    of the docstring is cut after its first sentence). *)
Definition class_namespace : list (string * val) :=
  [("__module__", VStr "game_objects.item");
   ("__doc__", VStr "dict wrapper for item infos.");
   ("transform_list", VList (VStr <$> transform_list));
   ("stat_list", VList (VStr <$> stat_list));
   ("__init__", VObj "ItemInfo.__init__");
   ("__getattr__", VObj "ItemInfo.__getattr__");
   ("__missing__", VObj "ItemInfo.__missing__")].

(** The attributes of the built-in bases [dict] and [object] (Python 2.7)
    that are not data descriptors. *)
Definition base_names : list string :=
  ["__cmp__"; "__contains__"; "__delattr__"; "__delitem__"; "__doc__";
   "__eq__"; "__format__"; "__ge__"; "__getattribute__"; "__getitem__";
   "__gt__"; "__hash__"; "__init__"; "__iter__"; "__le__"; "__len__";
   "__lt__"; "__ne__"; "__new__"; "__reduce__"; "__reduce_ex__"; "__repr__";
   "__setattr__"; "__setitem__"; "__sizeof__"; "__str__";
   "__subclasshook__"; "clear"; "copy"; "fromkeys"; "get"; "has_key";
   "items"; "iteritems"; "iterkeys"; "itervalues"; "keys"; "pop"; "popitem";
   "setdefault"; "update"; "values"; "viewitems"; "viewkeys"; "viewvalues"].

(** The data descriptors of the type: [__class__] (of [object]) and the
    [__dict__] and [__weakref__] slots every subclass of [dict] gets.  They
    win over the instance namespace.  [__dict__] yields the mapping
    itself, and [__weakref__] is [None] as no weak reference is taken. *)
Definition data_descriptor (self : t) (name : string) : option val :=
  if String.eqb name "__class__" then Some (VObj "ItemInfo")
  else if String.eqb name "__dict__" then Some (VDict (map_to_list self))
  else if String.eqb name "__weakref__" then Some VNone
  else None.

Fixpoint assoc (name : string) (ns : list (string * val)) : option val :=
  match ns with
  | [] => None
  | (k, v) :: ns' => if String.eqb name k then Some v else assoc name ns'
  end.

(** What the bases hold under a name: methods and slots (opaque), except
    that [dict] is unhashable and so has [__hash__ = None]. *)
Definition base_attribute (name : string) : option val :=
  if String.eqb name "__hash__" then Some VNone
  else if existsb (String.eqb name) base_names
  then Some (VObj ("dict." +:+ name))
  else None.

(** Lookup along the method resolution order [ItemInfo, dict, object]. *)
Definition class_attribute (name : string) : option val :=
  match assoc name class_namespace with
  | Some v => Some v
  | None => base_attribute name
  end.

(** [def __getattr__(self, name): return None] *)
Definition __getattr__ (self : t) (name : string) : val := VNone.

(** [self.name]: the data descriptors of the type, then the instance
    namespace (the record), then the other class attributes; the
    [__getattr__] hook runs only when all three fail. *)
Definition getattr (self : t) (name : string) : val :=
  match data_descriptor self name with
  | Some v => v
  | None =>
      match self !! name with
      | Some v => v
      | None =>
          match class_attribute name with
          | Some v => v
          | None => __getattr__ self name
          end
      end
  end.

(** [def __missing__(self, name): return self.__getattr__(name)]: the
    callee is found by ordinary attribute access on [self], so a record
    with a key ["__getattr__"] supplies its own value, which is not
    callable. *)
Definition __missing__ (self : t) (name : string) : result val :=
  match getattr self "__getattr__" with
  | VObj "ItemInfo.__getattr__" => Ok (__getattr__ self name)
  | _ => Err TypeError
  end.

(** [self[name]]: [dict.__getitem__], which calls [__missing__] of the
    type for an absent key. *)
Definition getitem (self : t) (name : string) : result val :=
  match self !! name with
  | Some v => Ok v
  | None => __missing__ self name
  end.

End ItemInfo.

(** ** Collaborators from other modules of the tracker *)

Module Floor.

(** Modelled from the spec: the class [Floor] is defined in another module
    of the package (game_objects/floor.py); it "exposes a [floor_id]
    accessor", and its instances are ordinary objects, hence true in a
    condition. *)
Record t : Type := { floor_id : string }.

End Floor.

Module ErrorStuff.

(** Modelled from the spec: [log_error] is defined in another module
    (error_stuff); it is "a logging sink" that "records" the message and
    its arguments and returns. *)
Record entry : Type := { message : string; arguments : list string }.

Definition log_error (msg : string) (args : list string) (log : list entry)
  : list entry :=
  log ++ [{| message := msg; arguments := args |}].

End ErrorStuff.

(** ** [class Item(Serializable)] *)

Module Item.

(** The class attributes [Item.items_info] and [Item.custom_items_info],
    set once by the tracker and read by the static methods. *)
Record store : Type := {
  items_info : gmap string (gmap string val);
  custom_items_info : gmap string (gmap string val)
}.

Record t : Type := {
  item_id : string;
  floor : Floor.t;
  starting_item : bool;
  blind : bool;
  was_rerolled : bool;
  info : ItemInfo.t
}.

Definition modded_item_id_prefix : string := "m".

(** The dictionary literal [serialization_flags], in the order written. *)
Definition serialization_flags : list (string * string) :=
  [("blind", "b"); ("was_rerolled", "r"); ("starting_item", "s")].

(** [iteritems()] visits the entries of a dictionary in an order the
    language leaves open: any rearrangement of the entries. *)
Definition iteritems_order (order : list (string * string)) : Prop :=
  order ≡ₚ serialization_flags.

(** [setattr(self, varname, value)] for a boolean value.  A name outside
    the three flag attributes would create an attribute the record does not
    track. *)
Definition setattr (self : t) (varname : string) (value : bool) : t :=
  if String.eqb varname "blind" then
    {| item_id := item_id self; floor := floor self;
       starting_item := starting_item self; blind := value;
       was_rerolled := was_rerolled self; info := info self |}
  else if String.eqb varname "was_rerolled" then
    {| item_id := item_id self; floor := floor self;
       starting_item := starting_item self; blind := blind self;
       was_rerolled := value; info := info self |}
  else if String.eqb varname "starting_item" then
    {| item_id := item_id self; floor := floor self;
       starting_item := value; blind := blind self;
       was_rerolled := was_rerolled self; info := info self |}
  else self.

(** [getattr(self, varname)] as read by [flags]. *)
Definition getattr (self : t) (varname : string) : result bool :=
  if String.eqb varname "blind" then Ok (blind self)
  else if String.eqb varname "was_rerolled" then Ok (was_rerolled self)
  else if String.eqb varname "starting_item" then Ok (starting_item self)
  else Err (AttributeError varname).

(** The loop of the [flags] property over the entries visited. *)
Fixpoint flags_loop (self : t) (entries : list (string * string))
    (flagstr : string) : result string :=
  match entries with
  | [] => Ok flagstr
  | (varname, flag) :: entries' =>
      v ← getattr self varname;
      flags_loop self entries' (if v : bool then flagstr +:+ flag else flagstr)
  end.

(** The property [flags]. *)
Definition flags (order : list (string * string)) (self : t)
  : result string :=
  flags_loop self order "".

(** [get_item_info(item_id)] *)
Definition get_item_info (st : store) (item_id : string)
  : result ItemInfo.t :=
  c ← index0 item_id;
  if String.eqb c modded_item_id_prefix then
    values ← dict_getitem (custom_items_info st) (slice1 item_id);
    Ok (ItemInfo.__init__ values)
  else
    values ← dict_getitem (items_info st) item_id;
    Ok (ItemInfo.__init__ values).

(** [contains_info(item_id)] *)
Definition contains_info (st : store) (item_id : string) : result bool :=
  c ← index0 item_id;
  if String.eqb c modded_item_id_prefix then
    Ok (dict_contains (custom_items_info st) (slice1 item_id))
  else
    Ok (dict_contains (items_info st) item_id).

(** The body of the loop of [determine_custom_item_names]:
    [if "name" not in v: v["name"] = k]. *)
Definition name_custom_item (k : string) (v : gmap string val)
  : gmap string val :=
  if negb (dict_contains v "name") then <["name" := VStr k]> v else v.

(** [determine_custom_item_names()]: every record of the custom table is
    visited once with its key and updated in place; the records are
    distinct objects, as loaded from the data file. *)
Definition determine_custom_item_names (st : store) : store :=
  {| items_info := items_info st;
     custom_items_info :=
       map_imap (λ k v, Some (name_custom_item k v))
         (custom_items_info st) |}.

(** The flag loop of [__init__]: one [setattr] per entry visited. *)
Definition decode_flags (order : list (string * string)) (flagstr : string)
    (self : t) : t :=
  foldl (fun self entry => setattr self entry.1 (str_in entry.2 flagstr))
        self order.

(** [Item.__init__].  Attributes are assigned in the order of the source;
    the record under construction starts with the flags off and an empty
    [info], each of which is assigned before the constructor returns. *)
Definition __init__ (order : list (string * string)) (st : store)
    (item_id : string) (floor : Floor.t)
    (starting_item was_rerolled blind : bool) (flagstr : option string)
  : result t :=
  let self :=
    {| item_id := item_id; floor := floor; starting_item := false;
       blind := false; was_rerolled := false; info := ∅ |} in
  let self :=
    match flagstr with
    | Some flagstr => decode_flags order flagstr self
    | None =>
        let self := setattr self "starting_item" starting_item in
        let self := setattr self "blind" blind in
        setattr self "was_rerolled" was_rerolled
    end in
  i ← get_item_info st item_id;
  Ok {| item_id := Item.item_id self; floor := Item.floor self;
        starting_item := Item.starting_item self; blind := Item.blind self;
        was_rerolled := Item.was_rerolled self; info := i |}.

(** [rerolled(self)] *)
Definition rerolled (self : t) : t :=
  if negb (truthy (ItemInfo.getattr (info self) "space"))
  then setattr self "was_rerolled" true
  else self.

(** The properties [name] and [floor_id]. *)
Definition name (self : t) : val := ItemInfo.getattr (info self) "name".

Definition floor_id (self : t) : string := Floor.floor_id (floor self).

(** [if stat: desc += stat + label] *)
Definition add_stat (stat : val) (label : string) (desc : string)
  : result string :=
  if truthy stat then
    s ← add_str stat label;
    Ok (desc +:+ s)
  else Ok desc.

(** [if stat: desc += "x" + stat + label] *)
Definition add_stat_x (stat : val) (label : string) (desc : string)
  : result string :=
  if truthy stat then
    s ← str_add "x" stat;
    Ok (desc +:+ (s +:+ label))
  else Ok desc.

(** [generate_item_description(self)] *)
Definition generate_item_description (self : t) : result string :=
  let desc := "" in
  let text := ItemInfo.getattr (info self) "text" in
  let dmg := ItemInfo.getattr (info self) "dmg" in
  let dmg_x := ItemInfo.getattr (info self) "dmg_x" in
  let delay := ItemInfo.getattr (info self) "delay" in
  let delay_x := ItemInfo.getattr (info self) "delay_x" in
  let health := ItemInfo.getattr (info self) "health" in
  let speed := ItemInfo.getattr (info self) "speed" in
  let shot_speed := ItemInfo.getattr (info self) "shot_speed" in
  let tear_range := ItemInfo.getattr (info self) "range" in
  let height := ItemInfo.getattr (info self) "height" in
  let tears := ItemInfo.getattr (info self) "tears" in
  let soul_hearts := ItemInfo.getattr (info self) "soul_hearts" in
  let sin_hearts := ItemInfo.getattr (info self) "sin_hearts" in
  desc ← add_stat dmg " dmg, " desc;
  desc ← add_stat_x dmg_x " dmg, " desc;
  desc ← add_stat tears " tears, " desc;
  desc ← add_stat delay " tear delay, " desc;
  desc ← add_stat_x delay_x " tear delay, " desc;
  desc ← add_stat shot_speed " shotspeed, " desc;
  desc ← add_stat tear_range " range, " desc;
  desc ← add_stat height " height, " desc;
  desc ← add_stat speed " speed, " desc;
  desc ← add_stat health " health, " desc;
  desc ← add_stat soul_hearts " soul hearts, " desc;
  desc ← add_stat sin_hearts " sin hearts, " desc;
  desc ← (if truthy text then str_add desc text else Ok desc);
  let desc := if endswith desc ", " then drop_last 2 desc else desc in
  let desc := if (0 <? String.length desc)%nat then ": " +:+ desc else desc in
  Ok desc.

(** What [==] and [!=] may find on their right: [None], another [Item],
    or a value of some other type. *)
Inductive object : Type :=
| ONone
| OItem (other : t)
| OVal (v : val).

Definition isinstance_Item (other : object) : bool :=
  match other with
  | OItem _ => true
  | _ => false
  end.

Definition is_None (other : object) : bool :=
  match other with
  | ONone => true
  | _ => false
  end.

(** [other.item_id == self.item_id], read only once [other] is known to be
    an [Item]. *)
Definition same_item_id (self : t) (other : object) : bool :=
  match other with
  | OItem o => String.eqb (item_id self) (item_id o)
  | _ => false
  end.

(** [__eq__(self, other)] *)
Definition __eq__ (self : t) (other : object) : bool :=
  if negb (isinstance_Item other) then false
  else negb (is_None other) && same_item_id self other.

(** [__ne__(self, other)] *)
Definition __ne__ (self : t) (other : object) : bool :=
  if negb (isinstance_Item other) then true
  else is_None other || negb (same_item_id self other).

Section Hash.

(** The built-in [hash] on strings. *)
Variable hash : string → Z.

(** [__hash__(self)] *)
Definition __hash__ (self : t) : Z := hash (item_id self).

End Hash.

(** A dictionary that passed the type check of [serialize]: the three
    entries are present and are strings. *)
Record valid_json : Type := {
  json_item_id : string;
  json_floor_id : string;
  json_flags : string
}.

(** [f.floor_id == json_dic['floor_id']], the condition of the generator
    that searches the floor list. *)
Definition floor_matches (json_dic : valid_json) (f : Floor.t) : bool :=
  String.eqb (Floor.floor_id f) (json_floor_id json_dic).

(** [from_valid_json(json_dic, floor_list)], with the error log threaded
    through.  [next(..., None)] is the first floor that matches, if any;
    the return value [None] is the result [Ok None]. *)
Definition from_valid_json (order : list (string * string)) (st : store)
    (json_dic : valid_json) (floor_list : list Floor.t)
    (log : list ErrorStuff.entry)
  : result (option t) * list ErrorStuff.entry :=
  let floor :=
    List.find (floor_matches json_dic) floor_list in
  match floor with
  | None =>
      (Ok None,
       ErrorStuff.log_error "ERROR: Floor id %s is not found in state list"
         [json_floor_id json_dic] log)
  | Some floor =>
      (let item_id := json_item_id json_dic in
       known ← contains_info st item_id;
       let item_id := if negb known then "NEW" else item_id in
       let flagstr := json_flags json_dic in
       self ← __init__ order st item_id floor false false false
                (Some flagstr);
       Ok (Some self),
       log)
  end.

End Item.

(** ** The description, as the specification words it *)

Module Described.

(** The stat fields in their order of precedence, each with the prefix
    and the unit label it is printed with. *)
Definition stat_fields : list (string * string * string) :=
  [("dmg", "", "dmg"); ("dmg_x", "x", "dmg"); ("tears", "", "tears");
   ("delay", "", "tear delay"); ("delay_x", "x", "tear delay");
   ("shot_speed", "", "shotspeed"); ("range", "", "range");
   ("height", "", "height"); ("speed", "", "speed");
   ("health", "", "health"); ("soul_hearts", "", "soul hearts");
   ("sin_hearts", "", "sin hearts")].

(** A field is present when the record holds a non-empty string for it. *)
Definition present (record : gmap string val) (field : string)
  : option string :=
  match record !! field with
  | Some (VStr s) => if String.eqb s "" then None else Some s
  | _ => None
  end.

(** A field the description can print or skip: a string, or a value that
    counts as false ([None], [False], zero, an empty container). *)
Definition printable (record : gmap string val) (field : string) : bool :=
  match record !! field with
  | Some (VStr _) | None => true
  | Some v => negb (truthy v)
  end.

(** The fields the description reads, stats first. *)
Definition fields : list string :=
  ((λ entry : string * string * string, entry.1.1) <$> stat_fields)
    ++ ["text"].

Definition stat_part (record : gmap string val)
    (entry : string * string * string) : string :=
  match present record entry.1.1 with
  | Some s => entry.1.2 +:+ s +:+ " " +:+ entry.2 +:+ ", "
  | None => ""
  end.

Definition text_part (record : gmap string val) : string :=
  match present record "text" with
  | Some s => s
  | None => ""
  end.

Fixpoint concat (parts : list string) : string :=
  match parts with
  | [] => ""
  | part :: parts' => part +:+ concat parts'
  end.

Definition strip_trailing (suffix s : string) : string :=
  if endswith s suffix then drop_last (String.length suffix) s else s.

Definition description (record : gmap string val) : string :=
  let body :=
    strip_trailing ", "
      (concat (stat_part record <$> stat_fields) +:+ text_part record) in
  if String.eqb body "" then "" else ": " +:+ body.

End Described.

(** ** Concrete inputs used by the examples below *)

Module Examples.

Definition F1 : Floor.t := {| Floor.floor_id := "F1" |}.
Definition F2 : Floor.t := {| Floor.floor_id := "F2" |}.

(** The metadata [{"dmg": "+1", "tears": "+0.2", "text": "Extra info"}]. *)
Definition extra_info : gmap string val :=
  <["dmg" := VStr "+1"]>
    (<["tears" := VStr "+0.2"]> (<["text" := VStr "Extra info"]> ∅)).

(** The metadata [{"dmg": 1}], with a number where a string is usual. *)
Definition numeric_info : gmap string val := <["dmg" := VInt 1]> ∅.

(** The metadata [{"name": "D6", "space": true}] of a spacebar item. *)
Definition space_info : gmap string val :=
  <["name" := VStr "D6"]> (<["space" := VBool true]> ∅).

Definition item_with (floor : Floor.t) (i : gmap string val) : Item.t :=
  {| Item.item_id := "105"; Item.floor := floor;
     Item.starting_item := false; Item.blind := false;
     Item.was_rerolled := false; Item.info := i |}.

(** Tables with the placeholder entry ["NEW"] and one custom item. *)
Definition tables : Item.store :=
  {| Item.items_info :=
       <["NEW" := <["name" := VStr "New Item"]> ∅]>
         (<["105" := space_info]> ∅);
     Item.custom_items_info := <["Betrayal" := extra_info]> ∅ |}.

(** Tables whose builtins have an entry under the empty key. *)
Definition tables_empty_key : Item.store :=
  {| Item.items_info := <["" := extra_info]> ∅;
     Item.custom_items_info := ∅ |}.

Definition record_999999 : Item.valid_json :=
  {| Item.json_item_id := "999999"; Item.json_floor_id := "F1";
     Item.json_flags := "rb" |}.

Definition record_missing_floor : Item.valid_json :=
  {| Item.json_item_id := "105"; Item.json_floor_id := "MISSING";
     Item.json_flags := "" |}.

Definition record_empty_id : Item.valid_json :=
  {| Item.json_item_id := ""; Item.json_floor_id := "F1";
     Item.json_flags := "rb" |}.

(** The metadata [{"__getattr__": "x"}], whose key hides the hook. *)
Definition hooked_info : gmap string val := <["__getattr__" := VStr "x"]> ∅.

(** A spacebar item found blind on floor [F1], as the constructor builds
    it from [tables]. *)
Definition blind_d6 : Item.t :=
  {| Item.item_id := "105"; Item.floor := F1;
     Item.starting_item := false; Item.blind := true;
     Item.was_rerolled := false; Item.info := space_info |}.

Definition record_blind_d6 : Item.valid_json :=
  {| Item.json_item_id := "105"; Item.json_floor_id := "F1";
     Item.json_flags := "b" |}.

Definition record_888888 : Item.valid_json :=
  {| Item.json_item_id := "888888"; Item.json_floor_id := "F2";
     Item.json_flags := "" |}.

(** A stand-in for the built-in string hash. *)
Definition length_hash (s : string) : Z := Z.of_nat (String.length s).

End Examples.

(** ** Facts about the string helpers *)

Module PyFacts.

Lemma append_cons (c : ascii) (p q : string) :
  String c p +:+ q = String c (p +:+ q).
Proof. reflexivity. Qed.

Lemma length_append (p q : string) :
  String.length (p +:+ q) = String.length p + String.length q.
Proof. induction p as [|c p IH]; simpl; [done | by rewrite IH]. Qed.

Lemma substring_all (s : string) : String.substring 0 (String.length s) s = s.
Proof. induction s as [|c s IH]; simpl; [done | by rewrite IH]. Qed.

Lemma substring_append_l (p q : string) :
  String.substring 0 (String.length p) (p +:+ q) = p.
Proof.
  induction p as [|c p IH]; simpl.
  - by destruct q.
  - by rewrite IH.
Qed.

Lemma substring_append_r (p q : string) :
  String.substring (String.length p) (String.length q) (p +:+ q) = q.
Proof.
  induction p as [|c p IH]; simpl; [apply substring_all | done].
Qed.

Lemma substring_split (n : nat) (s : string) :
  (n ≤ String.length s)%nat →
  String.substring 0 n s +:+
    String.substring n (String.length s - n) s = s.
Proof.
  revert n. induction s as [|c s IH]; intros [|n] Hn; simpl in *; try lia.
  - done.
  - by rewrite substring_all.
  - rewrite append_cons. f_equal. apply IH. lia.
Qed.

(** [endswith] holds exactly of the strings that end with the suffix. *)
Lemma endswith_spec (s suffix : string) :
  endswith s suffix = true ↔ ∃ p, s = p +:+ suffix.
Proof.
  unfold endswith. rewrite andb_true_iff, Nat.leb_le, String.eqb_eq. split.
  - intros [Hle Hsub].
    set (n := String.length s - String.length suffix) in *.
    exists (String.substring 0 n s).
    assert (String.length suffix = String.length s - n) as Hk by lia.
    rewrite <- Hsub, Hk. symmetry. apply substring_split. lia.
  - intros [p ->]. rewrite length_append. split; [lia |].
    replace (String.length p + String.length suffix - String.length suffix)
      with (String.length p) by lia.
    apply substring_append_r.
Qed.

(** [drop_last] removes a suffix of the given length. *)
Lemma drop_last_append (p suffix : string) :
  drop_last (String.length suffix) (p +:+ suffix) = p.
Proof.
  unfold drop_last. rewrite length_append.
  replace (String.length p + String.length suffix - String.length suffix)
    with (String.length p) by lia.
  apply substring_append_l.
Qed.

Lemma append_assoc (a b c : string) : (a +:+ b) +:+ c = a +:+ (b +:+ c).
Proof.
  induction a as [|x a IH]; [done |]. by rewrite !append_cons, IH.
Qed.

Lemma append_empty_l (a : string) : "" +:+ a = a.
Proof. reflexivity. Qed.

Lemma append_empty_r (a : string) : a +:+ "" = a.
Proof. induction a as [|x a IH]; [done |]. by rewrite append_cons, IH. Qed.

Lemma prefix_append (sub q : string) : String.prefix sub (sub +:+ q) = true.
Proof.
  induction sub as [|c sub IH]; simpl; [by destruct q |].
  by destruct (ascii_dec c c).
Qed.

Lemma prefix_inv (sub s : string) :
  String.prefix sub s = true → ∃ q, s = sub +:+ q.
Proof.
  revert s. induction sub as [|c sub IH]; intros s H; [by exists s |].
  destruct s as [|d s]; simpl in H; [done |].
  destruct (ascii_dec c d) as [->|]; [| done].
  destruct (IH s H) as [q ->]. by exists q.
Qed.

Lemma str_in_nil (sub : string) : str_in sub "" = String.prefix sub "".
Proof. simpl. apply orb_false_r. Qed.

Lemma str_in_cons (sub : string) (c : ascii) (s : string) :
  str_in sub (String c s) = String.prefix sub (String c s) || str_in sub s.
Proof. reflexivity. Qed.

(** [str_in] is the substring test. *)
Lemma str_in_spec (sub s : string) :
  str_in sub s = true ↔ ∃ p q, s = p +:+ (sub +:+ q).
Proof.
  split.
  - induction s as [|c s IH].
    + rewrite str_in_nil. intros H.
      destruct (prefix_inv _ _ H) as [q Hq]. by exists "", q.
    + rewrite str_in_cons, orb_true_iff. intros [H|H].
      * destruct (prefix_inv _ _ H) as [q Hq]. by exists "", q.
      * destruct (IH H) as (p & q & ->). by exists (String c p), q.
  - intros (p & q & ->). induction p as [|c p IH].
    + change ("" +:+ (sub +:+ q)) with (sub +:+ q).
      pose proof (prefix_append sub q) as Hp.
      destruct (sub +:+ q) as [|d r].
      * by rewrite str_in_nil.
      * by rewrite str_in_cons, Hp.
    + rewrite append_cons, str_in_cons, IH. apply orb_true_r.
Qed.

End PyFacts.

(** ** Properties of [ItemInfo] *)

Module ItemInfoSpec.

Import ItemInfo.

(** A name that no data descriptor and no class attribute claims is looked
    up in the record alone. *)
Lemma getattr_record (self : t) (name : string) :
  data_descriptor self name = None →
  class_attribute name = None →
  getattr self name = default VNone (self !! name).
Proof.
  intros Hd Hc. unfold getattr. rewrite Hd, Hc.
  by destruct (self !! name).
Qed.

(** A record without a key ["__getattr__"] leaves the hook of the class in
    place, and [__missing__] answers [None]. *)
Lemma missing_None (self : t) (name : string) :
  self !! "__getattr__" = None → __missing__ self name = Ok VNone.
Proof.
  intros H. unfold __missing__, getattr. cbn. by rewrite H.
Qed.

(** C6 (as amended): subscript access returns the stored value for every
    key of the record, and [None] for every other name as long as the
    record has no key ["__getattr__"]; attribute access returns the stored
    value for every key that is not a data descriptor of the class, and
    [None] for every name that is neither a key of the record nor an
    attribute of the class or its bases, as are the empty name and the
    reserved words.  Attribute access is a total function: it raises for
    no name. *)
Theorem field_access (self : t) (name : string) :
  (∀ v, self !! name = Some v → getitem self name = Ok v) ∧
  (∀ v, self !! name = Some v →
        data_descriptor self name = None → getattr self name = v) ∧
  (self !! name = None →
   self !! "__getattr__" = None → getitem self name = Ok VNone) ∧
  (self !! name = None →
   data_descriptor self name = None →
   class_attribute name = None → getattr self name = VNone) ∧
  (name ∈ [""; "class"; "def"; "import"; "None"; "lambda"] →
   self !! name = None → getattr self name = VNone).
Proof.
  split; [| split; [| split; [| split]]].
  - intros v H. unfold getitem. by rewrite H.
  - intros v H Hd. unfold getattr. by rewrite Hd, H.
  - intros H Hg. unfold getitem. rewrite H. by apply missing_None.
  - intros H Hd Hc. rewrite getattr_record by done. by rewrite H.
  - intros Hin H. rewrite getattr_record, H; [done | |];
      repeat (apply elem_of_cons in Hin as [-> | Hin]);
      try reflexivity; by apply elem_of_nil in Hin.
Qed.

(** The empty name is absent from the example record and comes back as
    [None] on both paths; ["dmg"] is present and comes back as stored. *)
Lemma field_access_witness :
  getitem Examples.extra_info "dmg" = Ok (VStr "+1") ∧
  getattr Examples.extra_info "dmg" = VStr "+1" ∧
  getitem Examples.extra_info "" = Ok VNone ∧
  getattr Examples.extra_info "" = VNone.
Proof.
  pose proof (field_access Examples.extra_info "dmg") as (H1 & H2 & _).
  pose proof (field_access Examples.extra_info "") as (_ & _ & H3 & H4 & _).
  split; [apply H1; reflexivity |].
  split; [apply H2; reflexivity |].
  split; [apply H3; reflexivity |].
  apply H4; reflexivity.
Defined.

(** C6 (as stated) fails: ["stat_list"] is no key of the empty record, yet
    attribute access finds the class attribute instead of [None]. *)
Lemma field_access_class_attribute :
  (∅ : t) !! "stat_list" = None ∧
  getattr ∅ "stat_list" = VList (VStr <$> stat_list) ∧
  getattr ∅ "stat_list" ≠ VNone.
Proof.
  split; [reflexivity |]. split; [by vm_compute |].
  intros H. vm_compute in H. discriminate H.
Qed.

End ItemInfoSpec.

(** ** Properties of [Item] *)

Module ItemSpec.

Import Item.

(** *** Iteration orders of [serialization_flags] *)

Lemma iteritems_order_cases (order : list (string * string)) :
  iteritems_order order →
  order ∈ permutations serialization_flags.
Proof. intros H. apply permutations_Permutation. by symmetry. Qed.

(** Case analysis on the six orders in which the entries can be visited. *)
Ltac each_order H :=
  apply iteritems_order_cases in H; vm_compute in H;
  repeat (apply elem_of_cons in H as [-> | H]);
  [.. | by apply elem_of_nil in H].

Lemma iteritems_order_literal : iteritems_order serialization_flags.
Proof. unfold iteritems_order. reflexivity. Qed.

(** Whatever the order of the visit, the flag loop of the constructor sets
    each of the three attributes to the occurrence of its character. *)
Lemma decode_flags_valid (order : list (string * string))
    (flagstr : string) (self : t) :
  iteritems_order order →
  decode_flags order flagstr self =
    {| item_id := item_id self; floor := floor self;
       starting_item := str_in "s" flagstr; blind := str_in "b" flagstr;
       was_rerolled := str_in "r" flagstr; info := info self |}.
Proof. intros H. each_order H; reflexivity. Qed.

(** Whatever the order of the visit, [flags] returns a string, and each of
    the three characters occurs in it exactly when its attribute is set. *)
Lemma flags_valid (order : list (string * string)) (self : t) :
  iteritems_order order →
  ∃ flagstr, flags order self = Ok flagstr ∧
    str_in "b" flagstr = blind self ∧
    str_in "r" flagstr = was_rerolled self ∧
    str_in "s" flagstr = starting_item self.
Proof.
  intros H. destruct self as [i f [] [] [] m];
    each_order H; eexists; (split; [reflexivity |]); by vm_compute.
Qed.

(** The constructor with a flag string, for any order of the visit. *)
Lemma init_flagstr (order : list (string * string)) (st : store)
    (id : string) (fl : Floor.t) (s r b : bool) (flagstr : string) :
  iteritems_order order →
  __init__ order st id fl s r b (Some flagstr) =
    (i ← get_item_info st id;
     Ok {| item_id := id; floor := fl; starting_item := str_in "s" flagstr;
           blind := str_in "b" flagstr; was_rerolled := str_in "r" flagstr;
           info := i |}).
Proof.
  intros H. unfold __init__. rewrite decode_flags_valid by done. done.
Qed.

(** C1: for each of the eight combinations of the three flags, and whatever
    the orders in which [flags] and the constructor visit
    [serialization_flags], [flags] returns a string from which the flag
    loop of the constructor restores exactly the three flag values, on any
    target and in the constructor itself. *)
Theorem flags_roundtrip (enc dec : list (string * string)) (x : t) :
  iteritems_order enc →
  iteritems_order dec →
  ∃ flagstr, flags enc x = Ok flagstr ∧
    (∀ y,
       decode_flags dec flagstr y =
         {| item_id := item_id y; floor := floor y;
            starting_item := starting_item x; blind := blind x;
            was_rerolled := was_rerolled x; info := info y |}) ∧
    (∀ st id fl s r b,
       __init__ dec st id fl s r b (Some flagstr) =
         (i ← get_item_info st id;
          Ok {| item_id := id; floor := fl;
                starting_item := starting_item x; blind := blind x;
                was_rerolled := was_rerolled x; info := i |})).
Proof.
  intros Henc Hdec.
  destruct (flags_valid enc x Henc) as (flagstr & Hf & Hb & Hr & Hs).
  exists flagstr. split; [done |]. split.
  - intros y. rewrite decode_flags_valid by done. by rewrite Hb, Hr, Hs.
  - intros st id fl s r b. rewrite init_flagstr by done.
    by rewrite Hb, Hr, Hs.
Qed.

(** Encoding in the literal order and decoding in the reverse order. *)
Lemma flags_roundtrip_witness :
  ∃ flagstr,
    flags serialization_flags
      (setattr (Examples.item_with Examples.F1 ∅) "blind" true)
      = Ok flagstr ∧
    blind (decode_flags (reverse serialization_flags) flagstr
             (Examples.item_with Examples.F2 ∅)) = true ∧
    was_rerolled (decode_flags (reverse serialization_flags) flagstr
             (Examples.item_with Examples.F2 ∅)) = false.
Proof.
  destruct (flags_roundtrip serialization_flags
              (reverse serialization_flags)
              (setattr (Examples.item_with Examples.F1 ∅) "blind" true))
    as (flagstr & Hf & Hd & _).
  - apply iteritems_order_literal.
  - unfold iteritems_order. apply reverse_Permutation.
  - exists flagstr. split; [exact Hf |]. by rewrite Hd.
Defined.

(** C9: with a flag string the constructor takes the three flags from the
    string alone: its result is spelled out without the boolean arguments,
    and two calls that differ only in them agree. *)
Theorem init_flagstr_overrides (order : list (string * string)) (st : store)
    (id : string) (fl : Floor.t) (s r b s' r' b' : bool)
    (flagstr : string) :
  iteritems_order order →
  __init__ order st id fl s r b (Some flagstr) =
    (i ← get_item_info st id;
     Ok {| item_id := id; floor := fl; starting_item := str_in "s" flagstr;
           blind := str_in "b" flagstr; was_rerolled := str_in "r" flagstr;
           info := i |}) ∧
  __init__ order st id fl s r b (Some flagstr) =
    __init__ order st id fl s' r' b' (Some flagstr).
Proof.
  intros H. split; [by apply init_flagstr |].
  by rewrite !init_flagstr.
Qed.

Lemma init_flagstr_overrides_witness :
  __init__ serialization_flags Examples.tables "105" Examples.F1
     true true true (Some "b") =
  __init__ serialization_flags Examples.tables "105" Examples.F1
     false false false (Some "b") ∧
  __init__ serialization_flags Examples.tables "105" Examples.F1
     true true true (Some "b") =
  Ok {| item_id := "105"; floor := Examples.F1; starting_item := false;
        blind := true; was_rerolled := false;
        info := Examples.space_info |}.
Proof.
  destruct (init_flagstr_overrides serialization_flags Examples.tables
              "105" Examples.F1 true true true false false false "b"
              iteritems_order_literal) as [H1 H2].
  split; [exact H2 |]. rewrite H1. reflexivity.
Defined.

(** *** The description *)

Lemma bind_Ok {A B} (a : A) (f : A → result B) : (Ok a ≫= f) = f a.
Proof. reflexivity. Qed.

Lemma add_stat_ok (record : gmap string val) (f unit label desc : string) :
  label = " " +:+ unit +:+ ", " →
  Described.printable record f = true →
  add_stat (default VNone (record !! f)) label desc =
    Ok (desc +:+ Described.stat_part record (f, "", unit)).
Proof.
  intros -> H. unfold Described.printable in H.
  unfold add_stat, Described.stat_part, Described.present. cbn [fst snd].
  destruct (record !! f) as [[| | |s| | |]|]; cbn in *;
    try (apply negb_true_iff in H; rewrite H);
    rewrite ?PyFacts.append_empty_r; try done.
  destruct (String.eqb s ""); cbn; by rewrite ?PyFacts.append_empty_r.
Qed.

Lemma add_stat_raises (record : gmap string val) (f label desc : string) :
  Described.printable record f = false →
  add_stat (default VNone (record !! f)) label desc = Err TypeError.
Proof.
  unfold Described.printable, add_stat.
  destruct (record !! f) as [[| | |s| | |]|]; cbn; try done;
    intros H; apply negb_false_iff in H; by rewrite H.
Qed.

Lemma add_stat_x_ok (record : gmap string val) (f unit label desc : string) :
  label = " " +:+ unit +:+ ", " →
  Described.printable record f = true →
  add_stat_x (default VNone (record !! f)) label desc =
    Ok (desc +:+ Described.stat_part record (f, "x", unit)).
Proof.
  intros -> H. unfold Described.printable in H.
  unfold add_stat_x, Described.stat_part, Described.present. cbn [fst snd].
  destruct (record !! f) as [[| | |s| | |]|]; cbn in *;
    try (apply negb_true_iff in H; rewrite H);
    rewrite ?PyFacts.append_empty_r; try done.
  destruct (String.eqb s ""); cbn; by rewrite ?PyFacts.append_empty_r.
Qed.

Lemma add_stat_x_raises (record : gmap string val) (f label desc : string) :
  Described.printable record f = false →
  add_stat_x (default VNone (record !! f)) label desc = Err TypeError.
Proof.
  unfold Described.printable, add_stat_x.
  destruct (record !! f) as [[| | |s| | |]|]; cbn; try done;
    intros H; apply negb_false_iff in H; by rewrite H.
Qed.

Lemma add_text_ok (record : gmap string val) (desc : string) :
  Described.printable record "text" = true →
  (if truthy (default VNone (record !! "text"))
   then str_add desc (default VNone (record !! "text")) else Ok desc) =
    Ok (desc +:+ Described.text_part record).
Proof.
  intros H. unfold Described.printable in H.
  unfold Described.text_part, Described.present.
  destruct (record !! "text") as [[| | |s| | |]|]; cbn in *;
    try (apply negb_true_iff in H; rewrite H);
    rewrite ?PyFacts.append_empty_r; try done.
  destruct (String.eqb s ""); cbn; by rewrite ?PyFacts.append_empty_r.
Qed.

Lemma add_text_raises (record : gmap string val) (desc : string) :
  Described.printable record "text" = false →
  (if truthy (default VNone (record !! "text"))
   then str_add desc (default VNone (record !! "text")) else Ok desc) =
    Err TypeError.
Proof.
  unfold Described.printable.
  destruct (record !! "text") as [[| | |s| | |]|]; cbn; try done;
    intros H; apply negb_false_iff in H; by rewrite H.
Qed.

(** The names the description reads are looked up in the record alone. *)
Lemma getattr_field (i : ItemInfo.t) (f : string) :
  f ∈ Described.fields →
  ItemInfo.getattr i f = default VNone (i !! f).
Proof.
  intros H. apply ItemInfoSpec.getattr_record;
    vm_compute in H; repeat (apply elem_of_cons in H as [-> | H]);
    try reflexivity; by apply elem_of_nil in H.
Qed.

Lemma strip_then_prefix (d : string) :
  (let desc := if endswith d ", " then drop_last 2 d else d in
   if (0 <? String.length desc)%nat then ": " +:+ desc else desc) =
  (let body := Described.strip_trailing ", " d in
   if String.eqb body "" then "" else ": " +:+ body).
Proof.
  unfold Described.strip_trailing. cbn zeta.
  change (String.length ", ") with 2.
  by destruct (if endswith d ", " then drop_last 2 d else d).
Qed.

(** One step of the description: either the field is printable and its
    part is appended, or the step raises and so does the whole call. *)
Ltac stat_step r ok raises f unit label :=
  destruct (Described.printable r f) eqn:?;
  [ rewrite (ok r f unit label _ eq_refl) by assumption;
    rewrite bind_Ok, ?andb_true_l
  | rewrite (raises r f label) by assumption; reflexivity ].

Lemma description_refines (self : t) :
  generate_item_description self =
    if forallb (Described.printable (info self)) Described.fields
    then Ok (Described.description (info self))
    else Err TypeError.
Proof.
  unfold generate_item_description. cbn zeta.
  rewrite !getattr_field by (vm_compute; set_solver).
  set (r := info self).
  change (forallb (Described.printable r) Described.fields) with
    (Described.printable r "dmg" && (Described.printable r "dmg_x" &&
     (Described.printable r "tears" && (Described.printable r "delay" &&
     (Described.printable r "delay_x" &&
     (Described.printable r "shot_speed" &&
     (Described.printable r "range" && (Described.printable r "height" &&
     (Described.printable r "speed" && (Described.printable r "health" &&
     (Described.printable r "soul_hearts" &&
     (Described.printable r "sin_hearts" &&
     (Described.printable r "text" && true))))))))))))).
  stat_step r add_stat_ok add_stat_raises "dmg" "dmg" " dmg, ".
  stat_step r add_stat_x_ok add_stat_x_raises "dmg_x" "dmg" " dmg, ".
  stat_step r add_stat_ok add_stat_raises "tears" "tears" " tears, ".
  stat_step r add_stat_ok add_stat_raises "delay" "tear delay"
    " tear delay, ".
  stat_step r add_stat_x_ok add_stat_x_raises "delay_x" "tear delay"
    " tear delay, ".
  stat_step r add_stat_ok add_stat_raises "shot_speed" "shotspeed"
    " shotspeed, ".
  stat_step r add_stat_ok add_stat_raises "range" "range" " range, ".
  stat_step r add_stat_ok add_stat_raises "height" "height" " height, ".
  stat_step r add_stat_ok add_stat_raises "speed" "speed" " speed, ".
  stat_step r add_stat_ok add_stat_raises "health" "health" " health, ".
  stat_step r add_stat_ok add_stat_raises "soul_hearts" "soul hearts"
    " soul hearts, ".
  stat_step r add_stat_ok add_stat_raises "sin_hearts" "sin hearts"
    " sin hearts, ".
  destruct (Described.printable r "text") eqn:Ht.
  - rewrite add_text_ok by done. rewrite bind_Ok. cbn [andb].
    rewrite strip_then_prefix. unfold Described.description.
    cbn [Described.concat fmap list_fmap Described.stat_fields].
    by rewrite !PyFacts.append_assoc, !PyFacts.append_empty_l.
  - rewrite add_text_raises by done. reflexivity.
Qed.

Lemma falsy_field (r : gmap string val) (f : string) :
  truthy (default VNone (r !! f)) = false →
  Described.printable r f = true ∧ Described.present r f = None.
Proof.
  unfold Described.printable, Described.present.
  destruct (r !! f) as [[| | |s| | |]|]; cbn; intros H;
    try (by rewrite H); try done.
  apply negb_false_iff in H. by rewrite H.
Qed.

Lemma concat_empty (r : gmap string val)
    (entries : list (string * string * string)) :
  (∀ e, e ∈ entries → Described.present r e.1.1 = None) →
  Described.concat (Described.stat_part r <$> entries) = "".
Proof.
  induction entries as [|e es IH]; intros H; [done |].
  cbn [fmap list_fmap Described.concat]. unfold Described.stat_part at 1.
  rewrite (H e) by by left. rewrite IH; [done |].
  intros e' He'. apply H. by right.
Qed.

(** C2 (as amended): the description is the concatenation, in the fixed
    order of [Described.stat_fields] and then the free text, of the fields
    that hold a non-empty string, each stat with its prefix, its unit label
    and [", "]; a trailing [", "] is stripped and a non-empty result is
    prefixed with [": "].  Fields that are absent or hold a false value are
    skipped, and the call raises [TypeError] when one of the fields holds a
    true value that is not a string.  An item all of whose fields are
    absent or false has the empty description, and the example of the
    specification comes out as stated. *)
Theorem description_spec (self : t) (fl : Floor.t) :
  generate_item_description self =
    (if forallb (Described.printable (info self)) Described.fields
     then Ok (Described.description (info self))
     else Err TypeError) ∧
  ((∀ f, f ∈ Described.fields →
      truthy (default VNone (info self !! f)) = false) →
   generate_item_description self = Ok "") ∧
  generate_item_description (Examples.item_with fl Examples.extra_info) =
    Ok ": +1 dmg, +0.2 tears, Extra info".
Proof.
  split; [apply description_refines |]. split.
  - intros H. rewrite description_refines.
    assert (forallb (Described.printable (info self)) Described.fields
            = true) as ->.
    { apply forallb_forall. intros f Hf%list_elem_of_In.
      by apply falsy_field, H. }
    unfold Described.description, Described.text_part.
    rewrite concat_empty.
    + destruct (falsy_field (info self) "text") as [_ ->]; [| done].
      apply H. vm_compute. set_solver.
    + intros e He. apply falsy_field, H.
      unfold Described.fields. apply elem_of_app. left.
      by apply (list_elem_of_fmap_2 (λ e : string * string * string, e.1.1)).
  - rewrite description_refines. by vm_compute.
Qed.

(** The item without metadata has no content; the example has three
    printable fields. *)
Lemma description_spec_witness :
  generate_item_description (Examples.item_with Examples.F1 ∅) = Ok "" ∧
  generate_item_description
    (Examples.item_with Examples.F1 Examples.extra_info) =
    Ok ": +1 dmg, +0.2 tears, Extra info".
Proof.
  destruct (description_spec (Examples.item_with Examples.F1 ∅)
              Examples.F1) as (_ & H & H').
  split; [| exact H']. apply H. intros f _. reflexivity.
Defined.

(** C2 (as stated) fails: a stat that is a non-zero number passes the test
    of presence, and the call raises instead of printing it. *)
Lemma description_numeric_stat :
  Examples.numeric_info !! "dmg" = Some (VInt 1) ∧
  truthy (VInt 1) = true ∧
  generate_item_description
    (Examples.item_with Examples.F1 Examples.numeric_info) = Err TypeError.
Proof. repeat split; by vm_compute. Qed.

(** *** Metadata lookup *)

(** C5 (as amended): for an identifier that begins with ["m"], both
    operations consult the custom table under the identifier without its
    first character; for every other non-empty identifier they consult the
    builtins table under the identifier itself. *)
Theorem info_routing (st : store) (id : string) :
  id ≠ "" →
  (∀ rest, id = "m" +:+ rest →
     get_item_info st id =
       (values ← dict_getitem (custom_items_info st) rest;
        Ok (ItemInfo.__init__ values)) ∧
     contains_info st id = Ok (dict_contains (custom_items_info st) rest)) ∧
  (String.prefix modded_item_id_prefix id = false →
     get_item_info st id =
       (values ← dict_getitem (items_info st) id;
        Ok (ItemInfo.__init__ values)) ∧
     contains_info st id = Ok (dict_contains (items_info st) id)).
Proof.
  intros Hne. split.
  - by intros rest ->.
  - destruct id as [|c id]; [done |]. intros Hp.
    unfold get_item_info, contains_info. cbn [index0]. rewrite !bind_Ok.
    assert (String.eqb (String c "") modded_item_id_prefix = false) as ->;
      [| done].
    apply String.eqb_neq. intros [= ->]. by destruct id.
Qed.

Lemma info_routing_witness :
  get_item_info Examples.tables "mBetrayal" = Ok Examples.extra_info ∧
  contains_info Examples.tables "mBetrayal" = Ok true ∧
  get_item_info Examples.tables "123" = Err (KeyError "123") ∧
  contains_info Examples.tables "105" = Ok true.
Proof.
  assert ("mBetrayal" ≠ "") as H1 by discriminate.
  assert ("123" ≠ "") as H2 by discriminate.
  assert ("105" ≠ "") as H3 by discriminate.
  destruct (info_routing Examples.tables "mBetrayal" H1) as [Hm _].
  destruct (Hm "Betrayal" eq_refl) as [Hg Hc].
  destruct (info_routing Examples.tables "123" H2) as [_ Hb].
  destruct (Hb eq_refl) as [Hg' _].
  destruct (info_routing Examples.tables "105" H3) as [_ Hb'].
  destruct (Hb' eq_refl) as [_ Hc'].
  split; [by rewrite Hg |]. split; [by rewrite Hc |].
  split; [by rewrite Hg' |]. by rewrite Hc'.
Defined.

(** C5 (as stated) fails: the empty identifier does not begin with ["m"],
    and the builtins table has an entry under it, yet neither operation
    consults the table. *)
Lemma info_routing_empty_id :
  String.prefix modded_item_id_prefix "" = false ∧
  dict_contains (items_info Examples.tables_empty_key) "" = true ∧
  contains_info Examples.tables_empty_key "" = Err IndexError ∧
  get_item_info Examples.tables_empty_key "" = Err IndexError.
Proof. repeat split; by vm_compute. Qed.

(** C10: both operations index the first character before anything else,
    so on the empty identifier they raise [IndexError] whatever the tables
    hold; on a non-empty identifier the presence check returns and the
    lookup never raises [IndexError]. *)
Theorem empty_item_id (st : store) :
  get_item_info st "" = Err IndexError ∧
  contains_info st "" = Err IndexError ∧
  (∀ c rest,
     raises (contains_info st (String c rest)) = false ∧
     get_item_info st (String c rest) ≠ Err IndexError).
Proof.
  split; [done |]. split; [done |]. intros c rest.
  unfold contains_info, get_item_info. cbn [index0]. rewrite !bind_Ok.
  destruct (String.eqb (String c "") modded_item_id_prefix); split;
    try done; unfold dict_getitem;
    match goal with |- context [?d !! ?k] => by destruct (d !! k) end.
Qed.

(** *** The reroll operation *)

(** C7: on an item whose metadata has a true ["space"] entry, [rerolled]
    returns the item as it was; on every other item it sets [was_rerolled]
    and leaves the other fields alone.  No case raises. *)
Theorem rerolled_spec (self : t) :
  (info self !! "space" = Some (VBool true) → rerolled self = self) ∧
  (truthy (ItemInfo.getattr (info self) "space") = true →
     rerolled self = self) ∧
  (truthy (ItemInfo.getattr (info self) "space") = false →
     rerolled self =
       {| item_id := item_id self; floor := floor self;
          starting_item := starting_item self; blind := blind self;
          was_rerolled := true; info := info self |}).
Proof.
  unfold rerolled. repeat split.
  - intros H. rewrite ItemInfoSpec.getattr_record by reflexivity.
    by rewrite H.
  - by intros ->.
  - by intros ->.
Qed.

Lemma rerolled_spec_witness :
  rerolled (Examples.item_with Examples.F1 Examples.space_info) =
    Examples.item_with Examples.F1 Examples.space_info ∧
  was_rerolled (rerolled (Examples.item_with Examples.F1 ∅)) = true.
Proof.
  destruct (rerolled_spec
              (Examples.item_with Examples.F1 Examples.space_info))
    as (H1 & _ & _).
  destruct (rerolled_spec (Examples.item_with Examples.F1 ∅))
    as (_ & _ & H2).
  split; [apply H1; reflexivity |]. rewrite H2; reflexivity.
Defined.

(** *** Identity *)

(** C8: two items are equal exactly when their [item_id]s are, whatever
    their floors and flags; [!=] is the negation of [==], on items and on
    any other operand; the hash is the hash of the [item_id], so equal
    items have equal hashes. *)
Theorem item_identity (hash : string → Z) (a b : t) :
  __eq__ a (OItem b) = bool_decide (item_id a = item_id b) ∧
  (∀ other, __ne__ a other = negb (__eq__ a other)) ∧
  __hash__ hash a = hash (item_id a) ∧
  (__eq__ a (OItem b) = true → __hash__ hash a = __hash__ hash b).
Proof.
  assert (__eq__ a (OItem b) = bool_decide (item_id a = item_id b)) as He.
  { unfold __eq__. cbn. case_bool_decide as H.
    - by apply String.eqb_eq.
    - by apply String.eqb_neq. }
  split; [done |]. split.
  { intros [|o|v]; unfold __ne__, __eq__; cbn; try done.
    all: by destruct (String.eqb (item_id a) (item_id o)). }
  split; [done |].
  rewrite He. intros H%bool_decide_eq_true. unfold __hash__. by rewrite H.
Qed.

Lemma item_identity_witness :
  __eq__ (Examples.item_with Examples.F1 ∅)
    (OItem (setattr (Examples.item_with Examples.F2 Examples.space_info)
              "blind" true)) = true ∧
  __hash__ Examples.length_hash (Examples.item_with Examples.F1 ∅) =
  __hash__ Examples.length_hash
    (setattr (Examples.item_with Examples.F2 Examples.space_info)
       "blind" true).
Proof.
  destruct (item_identity Examples.length_hash
              (Examples.item_with Examples.F1 ∅)
              (setattr (Examples.item_with Examples.F2 Examples.space_info)
                 "blind" true)) as (H1 & _ & _ & H4).
  split; [rewrite H1; reflexivity |]. apply H4. rewrite H1. reflexivity.
Defined.

(** *** Reconstruction from persisted state *)

Lemma find_floor_None (json_dic : valid_json) (floor_list : list Floor.t) :
  (∀ f, f ∈ floor_list → Floor.floor_id f ≠ json_floor_id json_dic) →
  List.find (floor_matches json_dic) floor_list = None.
Proof.
  induction floor_list as [|f fs IH]; intros H; [done |]. cbn.
  assert (floor_matches json_dic f = false) as ->.
  { apply String.eqb_neq, H. by left. }
  apply IH. intros g Hg. apply H. by right.
Qed.

Lemma find_floor_Some (json_dic : valid_json) (floor_list : list Floor.t)
    (f : Floor.t) :
  f ∈ floor_list →
  Floor.floor_id f = json_floor_id json_dic →
  ∃ f', List.find (floor_matches json_dic) floor_list = Some f' ∧
        f' ∈ floor_list ∧ Floor.floor_id f' = json_floor_id json_dic.
Proof.
  intros Hin Hid. induction floor_list as [|g fs IH]; [by inversion Hin |].
  cbn. destruct (floor_matches json_dic g) eqn:Hg.
  - exists g. split; [done |]. split; [by left |]. by apply String.eqb_eq.
  - apply elem_of_cons in Hin as [-> | Hin].
    + apply String.eqb_neq in Hg. done.
    + destruct (IH Hin) as (f' & ? & ? & ?). exists f'.
      split; [done |]. split; [by right | done].
Qed.

(** C4: when no floor of the list has the [floor_id] of the record, the
    call returns [None] without raising, and the only effect is one entry
    appended to the error log, naming the missing floor id. *)
Theorem from_valid_json_unknown_floor (order : list (string * string))
    (st : store) (json_dic : valid_json) (floor_list : list Floor.t)
    (log : list ErrorStuff.entry) :
  (∀ f, f ∈ floor_list → Floor.floor_id f ≠ json_floor_id json_dic) →
  from_valid_json order st json_dic floor_list log =
    (Ok None,
     (log ++ [{| ErrorStuff.message :=
                   "ERROR: Floor id %s is not found in state list";
                 ErrorStuff.arguments := [json_floor_id json_dic] |}])%list).
Proof.
  intros H. unfold from_valid_json.
  by rewrite find_floor_None.
Qed.

Lemma from_valid_json_unknown_floor_witness :
  from_valid_json serialization_flags Examples.tables
    Examples.record_missing_floor [Examples.F1] [] =
    (Ok None,
     [{| ErrorStuff.message :=
           "ERROR: Floor id %s is not found in state list";
         ErrorStuff.arguments := ["MISSING"] |}]).
Proof.
  apply (from_valid_json_unknown_floor serialization_flags Examples.tables
           Examples.record_missing_floor [Examples.F1] []).
  intros f Hf. apply list_elem_of_singleton in Hf as ->. discriminate.
Defined.

(** C3 (as amended): when some floor of the list has the [floor_id] of the
    record, the presence check answers false for its [item_id] (which
    makes it non-empty), and the builtins table holds the placeholder
    ["NEW"], the call logs nothing and returns an item for ["NEW"] on a
    matching floor, with the placeholder metadata and with each flag set
    to the occurrence of its character in the [flags] of the record. *)
Theorem from_valid_json_unknown_item (order : list (string * string))
    (st : store) (json_dic : valid_json) (floor_list : list Floor.t)
    (log : list ErrorStuff.entry) (f : Floor.t) (new : gmap string val) :
  iteritems_order order →
  f ∈ floor_list →
  Floor.floor_id f = json_floor_id json_dic →
  contains_info st (json_item_id json_dic) = Ok false →
  items_info st !! "NEW" = Some new →
  ∃ f', f' ∈ floor_list ∧ Floor.floor_id f' = json_floor_id json_dic ∧
    from_valid_json order st json_dic floor_list log =
      (Ok (Some {| item_id := "NEW"; floor := f';
                   starting_item := str_in "s" (json_flags json_dic);
                   blind := str_in "b" (json_flags json_dic);
                   was_rerolled := str_in "r" (json_flags json_dic);
                   info := ItemInfo.__init__ new |}),
       log).
Proof.
  intros Ho Hin Hid Hc Hnew.
  destruct (find_floor_Some json_dic floor_list f Hin Hid)
    as (f' & Hfind & Hin' & Hid').
  exists f'. split; [done |]. split; [done |].
  unfold from_valid_json.
  rewrite Hfind, Hc, bind_Ok. cbn [negb].
  rewrite init_flagstr by done.
  unfold get_item_info, dict_getitem. cbn. by rewrite Hnew.
Qed.

(** The scenario of the specification: the unknown id ["999999"] on floor
    ["F1"] with flags ["rb"]. *)
Lemma from_valid_json_unknown_item_witness :
  from_valid_json serialization_flags Examples.tables
    Examples.record_999999 [Examples.F1] [] =
    (Ok (Some {| item_id := "NEW"; floor := Examples.F1;
                 starting_item := false; blind := true;
                 was_rerolled := true;
                 info := <["name" := VStr "New Item"]> ∅ |}),
     []).
Proof.
  destruct (from_valid_json_unknown_item serialization_flags
              Examples.tables Examples.record_999999 [Examples.F1] []
              Examples.F1 (<["name" := VStr "New Item"]> ∅))
    as (f' & Hin & _ & Hr).
  - apply iteritems_order_literal.
  - apply list_elem_of_singleton. reflexivity.
  - reflexivity.
  - vm_compute. reflexivity.
  - vm_compute. reflexivity.
  - apply list_elem_of_singleton in Hin. rewrite Hr, Hin. reflexivity.
Defined.

(** C3 (as stated) fails: the empty [item_id] is in neither table and the
    floor is found, yet the presence check raises [IndexError] and no item
    is built, although the placeholder ["NEW"] is there. *)
Lemma from_valid_json_empty_id :
  items_info Examples.tables !! "" = None ∧
  custom_items_info Examples.tables !! "" = None ∧
  is_Some (items_info Examples.tables !! "NEW") ∧
  from_valid_json serialization_flags Examples.tables
    Examples.record_empty_id [Examples.F1] [] = (Err IndexError, []).
Proof.
  split; [by vm_compute |]. split; [by vm_compute |].
  split; [by eexists; vm_compute |]. by vm_compute.
Qed.

End ItemSpec.

(** ** Further properties of [ItemInfo] *)

Module ItemInfoExtra.

Import ItemInfo.

(** X1: none of the stats and properties that the docstring lists, nor the
    free text, is shadowed by the class: attribute access reads the
    record, answers [None] when the record lacks the name, and agrees with
    subscript access on a record without a key ["__getattr__"]. *)
Theorem documented_names_plain (self : t) (name : string) :
  name ∈ documented_names →
  getattr self name = default VNone (self !! name) ∧
  (self !! "__getattr__" = None →
   getitem self name = Ok (getattr self name)).
Proof.
  intros Hin.
  assert (getattr self name = default VNone (self !! name)) as Hg.
  { apply ItemInfoSpec.getattr_record; vm_compute in Hin;
      repeat (apply elem_of_cons in Hin as [-> | Hin]);
      try reflexivity; by apply elem_of_nil in Hin. }
  split; [done |]. intros Hhook. rewrite Hg. unfold getitem.
  destruct (self !! name); [done |]. by apply ItemInfoSpec.missing_None.
Qed.

Lemma documented_names_plain_witness :
  getattr Examples.space_info "space" = VBool true ∧
  getattr Examples.space_info "guppy" = VNone ∧
  getitem Examples.space_info "guppy" = Ok VNone.
Proof.
  assert ("space" ∈ documented_names) as H1
    by (refine (bool_decide_unpack _ _); vm_compute; exact I).
  assert ("guppy" ∈ documented_names) as H2
    by (refine (bool_decide_unpack _ _); vm_compute; exact I).
  destruct (documented_names_plain Examples.space_info "space" H1)
    as [Hs _].
  destruct (documented_names_plain Examples.space_info "guppy" H2)
    as [Hg Hi].
  split; [by rewrite Hs |]. split; [by rewrite Hg |].
  rewrite Hi, Hg; reflexivity.
Defined.

(** X2: subscript access can raise nothing but [TypeError], and only for a
    name the record lacks while the record has a key ["__getattr__"]; a
    stored key never raises. *)
Theorem getitem_raises_only (self : t) (name : string) (e : exn) :
  getitem self name = Err e →
  e = TypeError ∧ self !! name = None ∧ is_Some (self !! "__getattr__").
Proof.
  unfold getitem. destruct (self !! name) as [v|] eqn:Hn; [done |].
  unfold __missing__, getattr. cbn.
  destruct (self !! "__getattr__") as [w|] eqn:Hw; [| done].
  intros H. split; [| by eauto].
  repeat case_match; congruence.
Qed.

Lemma getitem_raises_only_witness :
  getitem Examples.hooked_info "dmg" = Err TypeError ∧
  Examples.hooked_info !! "dmg" = None ∧
  is_Some (Examples.hooked_info !! "__getattr__").
Proof.
  assert (getitem Examples.hooked_info "dmg" = Err TypeError) as H
    by reflexivity.
  split; [exact H |].
  destruct (getitem_raises_only Examples.hooked_info "dmg" TypeError H)
    as (_ & Hn & Hs).
  split; [exact Hn | exact Hs].
Defined.

End ItemInfoExtra.

(** ** Further properties of [Item] *)

Module ItemExtra.

Import Item.

(** *** Presence check and lookup *)

(** The three ways a lookup can go, and what the presence check says in
    each. *)
Lemma lookup_cases (st : store) (id : string) :
  (id = "" ∧ contains_info st id = Err IndexError ∧
   get_item_info st id = Err IndexError) ∨
  (id ≠ "" ∧ contains_info st id = Ok true ∧
   ∃ i, get_item_info st id = Ok i) ∨
  (id ≠ "" ∧ contains_info st id = Ok false ∧
   ∃ k, get_item_info st id = Err (KeyError k)).
Proof.
  destruct id as [|c id]; [by left |]. right.
  unfold contains_info, get_item_info. cbn [index0].
  rewrite !ItemSpec.bind_Ok.
  destruct (String.eqb (String c "") modded_item_id_prefix);
    unfold dict_contains, dict_getitem;
    match goal with |- context [?d !! ?k] => destruct (d !! k) eqn:E end;
    cbn; [left | right | left | right]; (split; [done |]);
    (split; [by rewrite ?bool_decide_eq_true_2, ?bool_decide_eq_false_2
                by (try apply is_Some_None; eauto) | by eauto]).
Qed.

(** X3: the presence check predicts the lookup: it answers true exactly
    when the lookup returns metadata, false exactly when the lookup raises
    [KeyError], and both raise [IndexError] exactly on the empty
    identifier. *)
Theorem presence_predicts_lookup (st : store) (id : string) :
  (contains_info st id = Ok true ↔ ∃ i, get_item_info st id = Ok i) ∧
  (contains_info st id = Ok false ↔
     ∃ k, get_item_info st id = Err (KeyError k)) ∧
  (contains_info st id = Err IndexError ↔ id = "") ∧
  (get_item_info st id = Err IndexError ↔ id = "").
Proof.
  destruct (lookup_cases st id)
    as [(-> & Hc & Hg) | [(Hne & Hc & i & Hg) | (Hne & Hc & k & Hg)]];
    rewrite Hc, Hg; repeat split; try done; try (intros [? ?]; done);
    eauto.
Qed.

Lemma presence_predicts_lookup_witness :
  contains_info Examples.tables "mBetrayal" = Ok true ∧
  contains_info Examples.tables "mZodiac" = Ok false.
Proof.
  destruct (presence_predicts_lookup Examples.tables "mBetrayal")
    as (H1 & _).
  destruct (presence_predicts_lookup Examples.tables "mZodiac")
    as (_ & H2 & _).
  split.
  - apply H1. exists Examples.extra_info. reflexivity.
  - apply H2. exists "Zodiac". reflexivity.
Defined.

(** *** [determine_custom_item_names] *)

Lemma name_custom_item_name (k : string) (v : gmap string val) :
  name_custom_item k v !! "name" = Some (default (VStr k) (v !! "name")).
Proof.
  unfold name_custom_item, dict_contains.
  destruct (v !! "name") as [n|] eqn:E.
  - rewrite bool_decide_eq_true_2 by eauto. cbn. by rewrite E.
  - rewrite bool_decide_eq_false_2 by apply is_Some_None. cbn.
    by rewrite lookup_insert_eq.
Qed.

Lemma name_custom_item_other (k f : string) (v : gmap string val) :
  f ≠ "name" → name_custom_item k v !! f = v !! f.
Proof.
  intros Hf. unfold name_custom_item.
  destruct (negb (dict_contains v "name")); [| done].
  by rewrite lookup_insert_ne.
Qed.

Lemma name_custom_item_idem (k : string) (v : gmap string val) :
  name_custom_item k (name_custom_item k v) = name_custom_item k v.
Proof.
  unfold name_custom_item at 1. unfold dict_contains.
  rewrite name_custom_item_name.
  by rewrite bool_decide_eq_true_2 by eauto.
Qed.

Lemma custom_lookup_determine (st : store) (k : string) :
  custom_items_info (determine_custom_item_names st) !! k =
    name_custom_item k <$> custom_items_info st !! k.
Proof.
  unfold determine_custom_item_names. cbn. rewrite map_lookup_imap.
  by destruct (custom_items_info st !! k).
Qed.

(** X4: after [determine_custom_item_names] every record of the custom
    table has a name: the one it had if it had one, its key otherwise; all
    its other entries are as before. *)
Theorem determine_names (st : store) (k : string) (v : gmap string val) :
  custom_items_info st !! k = Some v →
  ∃ v', custom_items_info (determine_custom_item_names st) !! k = Some v' ∧
    v' !! "name" = Some (default (VStr k) (v !! "name")) ∧
    ∀ f, f ≠ "name" → v' !! f = v !! f.
Proof.
  intros H. exists (name_custom_item k v).
  rewrite custom_lookup_determine, H. split; [done |].
  split; [apply name_custom_item_name |].
  intros f Hf. by apply name_custom_item_other.
Qed.

Lemma determine_names_witness :
  ∃ v', custom_items_info (determine_custom_item_names Examples.tables)
          !! "Betrayal" = Some v' ∧
    v' !! "name" = Some (VStr "Betrayal") ∧
    v' !! "dmg" = Some (VStr "+1").
Proof.
  destruct (determine_names Examples.tables "Betrayal" Examples.extra_info)
    as (v' & H1 & H2 & H3); [reflexivity |].
  exists v'. split; [exact H1 |]. split; [exact H2 |].
  rewrite H3 by discriminate. reflexivity.
Defined.

(** X5: running [determine_custom_item_names] a second time changes
    nothing. *)
Theorem determine_idempotent (st : store) :
  determine_custom_item_names (determine_custom_item_names st) =
  determine_custom_item_names st.
Proof.
  assert (∀ a b : store,
            items_info a = items_info b →
            custom_items_info a = custom_items_info b → a = b) as Hext.
  { intros [] []; cbn; congruence. }
  apply Hext; [done |]. apply map_eq. intros k.
  rewrite !custom_lookup_determine.
  destruct (custom_items_info st !! k) as [v|]; [| done]. cbn.
  by rewrite name_custom_item_idem.
Qed.

(** X6: [determine_custom_item_names] adds and removes no item: the
    presence check answers as before for every identifier, the builtins
    table is untouched, and so is every lookup of a builtin item. *)
Theorem determine_keeps_items (st : store) (id : string) :
  contains_info (determine_custom_item_names st) id = contains_info st id ∧
  items_info (determine_custom_item_names st) = items_info st ∧
  (String.prefix modded_item_id_prefix id = false →
   get_item_info (determine_custom_item_names st) id =
     get_item_info st id).
Proof.
  split; [| split; [done |]].
  - unfold contains_info. destruct (index0 id) as [c|]; [| done].
    rewrite !ItemSpec.bind_Ok.
    destruct (String.eqb c modded_item_id_prefix); [| done].
    unfold dict_contains. rewrite custom_lookup_determine.
    by destruct (custom_items_info st !! slice1 id).
  - destruct id as [|c id]; [done |]. intros Hp.
    unfold get_item_info. cbn [index0]. rewrite !ItemSpec.bind_Ok.
    assert (String.eqb (String c "") modded_item_id_prefix = false) as ->;
      [| done].
    apply String.eqb_neq. intros [= ->]. by destruct id.
Qed.

Lemma determine_keeps_items_witness :
  get_item_info (determine_custom_item_names Examples.tables) "105" =
    Ok Examples.space_info.
Proof.
  destruct (determine_keeps_items Examples.tables "105") as (_ & _ & H).
  rewrite H; reflexivity.
Defined.

(** X7: an item built for a custom identifier after
    [determine_custom_item_names] has a name: the explicit one of its
    record, or else the identifier without its prefix. *)
Theorem custom_item_named (order : list (string * string)) (st : store)
    (k : string) (v : gmap string val) (fl : Floor.t) (s r b : bool)
    (flagstr : option string) :
  custom_items_info st !! k = Some v →
  ∃ self,
    __init__ order (determine_custom_item_names st)
      (modded_item_id_prefix +:+ k) fl s r b flagstr = Ok self ∧
    name self = default (VStr k) (v !! "name").
Proof.
  intros H. change (modded_item_id_prefix +:+ k) with (String "m" k).
  assert (get_item_info (determine_custom_item_names st) (String "m" k)
          = Ok (name_custom_item k v)) as Hg.
  { unfold get_item_info. cbn [index0]. rewrite ItemSpec.bind_Ok.
    change (String.eqb (String "m" "") modded_item_id_prefix) with true.
    cbn [slice1]. unfold dict_getitem.
    by rewrite custom_lookup_determine, H. }
  unfold __init__. rewrite Hg, ItemSpec.bind_Ok.
  eexists. split; [reflexivity |]. unfold name. cbn [info].
  rewrite ItemInfoSpec.getattr_record by reflexivity.
  by rewrite name_custom_item_name.
Qed.

Lemma custom_item_named_witness :
  ∃ self,
    __init__ serialization_flags
      (determine_custom_item_names Examples.tables) "mBetrayal"
      Examples.F1 false false false None = Ok self ∧
    name self = VStr "Betrayal".
Proof.
  destruct (custom_item_named serialization_flags Examples.tables
              "Betrayal" Examples.extra_info Examples.F1
              false false false None) as (self & H1 & H2);
    [reflexivity |].
  exists self. split; [exact H1 |]. rewrite H2. reflexivity.
Defined.

(** *** Flags *)

Import ItemSpec.

Lemma prefix_char (c d : ascii) (s : string) :
  String.prefix (String c "") (String d s) = Ascii.eqb c d.
Proof.
  cbn. destruct (ascii_dec c d) as [->|Hn].
  - rewrite Ascii.eqb_refl. by destruct s.
  - symmetry. by apply Ascii.eqb_neq.
Qed.

(** A single character occurs in a concatenation exactly when it occurs
    in one of the two parts. *)
Lemma str_in_char_append (c : ascii) (s1 s2 : string) :
  str_in (String c "") (s1 +:+ s2) =
    str_in (String c "") s1 || str_in (String c "") s2.
Proof.
  induction s1 as [|d s1 IH]; [done |].
  rewrite PyFacts.append_cons, !PyFacts.str_in_cons, !prefix_char, IH.
  by rewrite orb_assoc.
Qed.

(** X8: whatever the order of the visit, [flags] writes one character per
    flag that is set and nothing else: its length is the number of flags
    set, and an item with no flag set has the empty string. *)
Theorem flags_one_char_per_flag (order : list (string * string))
    (self : t) :
  iteritems_order order →
  ∃ flagstr, flags order self = Ok flagstr ∧
    String.length flagstr =
      (Nat.b2n (blind self) + Nat.b2n (was_rerolled self) +
       Nat.b2n (starting_item self))%nat ∧
    (blind self || was_rerolled self || starting_item self = false →
     flagstr = "").
Proof.
  intros H. destruct self as [i f [] [] [] m];
    each_order H; eexists; (split; [reflexivity |]); by vm_compute.
Qed.

Lemma flags_one_char_per_flag_witness :
  ∃ flagstr, flags serialization_flags Examples.blind_d6 = Ok flagstr ∧
    String.length flagstr = 1.
Proof.
  destruct (flags_one_char_per_flag serialization_flags Examples.blind_d6
              iteritems_order_literal) as (flagstr & H1 & H2 & _).
  exists flagstr. split; [exact H1 | exact H2].
Defined.

(** X9: the flags decoded from a concatenation are the union of the flags
    decoded from its parts.  Hence the order of the characters does not
    matter, a repeated string changes nothing, and characters other than
    the three flag characters are ignored. *)
Theorem decode_flags_append (order : list (string * string))
    (s1 s2 : string) (y : t) :
  iteritems_order order →
  decode_flags order (s1 +:+ s2) y =
    {| item_id := item_id y; floor := floor y;
       starting_item := starting_item (decode_flags order s1 y) ||
                        starting_item (decode_flags order s2 y);
       blind := blind (decode_flags order s1 y) ||
                blind (decode_flags order s2 y);
       was_rerolled := was_rerolled (decode_flags order s1 y) ||
                       was_rerolled (decode_flags order s2 y);
       info := info y |} ∧
  decode_flags order (s1 +:+ s2) y = decode_flags order (s2 +:+ s1) y ∧
  decode_flags order (s1 +:+ s1) y = decode_flags order s1 y ∧
  (str_in "b" s2 || str_in "r" s2 || str_in "s" s2 = false →
   decode_flags order (s1 +:+ s2) y = decode_flags order s1 y).
Proof.
  intros H. rewrite !decode_flags_valid by done. cbn.
  rewrite !str_in_char_append. repeat split.
  - f_equal; apply orb_comm.
  - f_equal; apply orb_diag.
  - intros [[-> ->]%orb_false_iff ->]%orb_false_iff.
    by rewrite !orb_false_r.
Qed.

Lemma decode_flags_append_witness :
  decode_flags serialization_flags ("rb" +:+ "xyz")
    (Examples.item_with Examples.F1 ∅) =
  decode_flags serialization_flags "br" (Examples.item_with Examples.F1 ∅).
Proof.
  destruct (decode_flags_append serialization_flags "rb" "xyz"
              (Examples.item_with Examples.F1 ∅) iteritems_order_literal)
    as (_ & _ & _ & H).
  rewrite H; reflexivity.
Defined.

(** X10: an item built from explicit flag values, written out with
    [flags] and built again from the resulting string is the same item,
    whatever the boolean arguments of the second call and whatever the
    orders of the two visits. *)
Theorem init_flags_init (enc dec : list (string * string)) (st : store)
    (id : string) (fl : Floor.t) (s r b : bool) (self : t) :
  iteritems_order enc →
  iteritems_order dec →
  __init__ enc st id fl s r b None = Ok self →
  ∃ flagstr, flags enc self = Ok flagstr ∧
    ∀ s' r' b', __init__ dec st id fl s' r' b' (Some flagstr) = Ok self.
Proof.
  intros Henc Hdec Hinit.
  destruct (flags_valid enc self Henc) as (flagstr & Hf & Hb & Hr & Hs).
  exists flagstr. split; [done |]. intros s' r' b'.
  rewrite init_flagstr by done. rewrite Hb, Hr, Hs.
  unfold __init__ in Hinit.
  destruct (get_item_info st id) as [i|e]; [| done].
  rewrite bind_Ok in *. by injection Hinit as <-.
Qed.

Lemma init_flags_init_witness :
  ∃ flagstr, flags serialization_flags Examples.blind_d6 = Ok flagstr ∧
    __init__ (reverse serialization_flags) Examples.tables "105"
      Examples.F1 true true false (Some flagstr) = Ok Examples.blind_d6.
Proof.
  destruct (init_flags_init serialization_flags
              (reverse serialization_flags) Examples.tables "105"
              Examples.F1 false false true Examples.blind_d6)
    as (flagstr & H1 & H2).
  - apply iteritems_order_literal.
  - unfold iteritems_order. apply reverse_Permutation.
  - reflexivity.
  - exists flagstr. split; [exact H1 | apply H2].
Defined.

(** *** Reconstruction *)

Lemma from_valid_json_found (order : list (string * string)) (st : store)
    (json_dic : valid_json) (floor_list : list Floor.t)
    (log : list ErrorStuff.entry) (f : Floor.t) :
  List.find (floor_matches json_dic) floor_list = Some f →
  from_valid_json order st json_dic floor_list log =
    ((known ← contains_info st (json_item_id json_dic);
      self ← __init__ order st
                (if negb known then "NEW" else json_item_id json_dic)
                f false false false (Some (json_flags json_dic));
      Ok (Some self)),
     log).
Proof. intros H. unfold from_valid_json. by rewrite H. Qed.

(** With distinct floor ids, the search finds the one floor that has the
    id of the record. *)
Lemma find_floor_unique (json_dic : valid_json)
    (floor_list : list Floor.t) (f : Floor.t) :
  NoDup (Floor.floor_id <$> floor_list) →
  f ∈ floor_list →
  Floor.floor_id f = json_floor_id json_dic →
  List.find (floor_matches json_dic) floor_list = Some f.
Proof.
  intros Hnd Hin Hid. induction floor_list as [|g fs IH];
    [by inversion Hin |].
  cbn in *. apply NoDup_cons in Hnd as [Hg Hnd].
  destruct (floor_matches json_dic g) eqn:Hm.
  - apply String.eqb_eq in Hm.
    apply elem_of_cons in Hin as [-> | Hin]; [done |].
    exfalso. apply Hg. rewrite Hm, <- Hid.
    by apply list_elem_of_fmap_2.
  - apply elem_of_cons in Hin as [-> | Hin]; [| by apply IH].
    apply String.eqb_neq in Hm. done.
Qed.

Lemma from_valid_json_known (order : list (string * string)) (st : store)
    (json_dic : valid_json) (floor_list : list Floor.t)
    (log : list ErrorStuff.entry) (f : Floor.t) (i : ItemInfo.t) :
  iteritems_order order →
  List.find (floor_matches json_dic) floor_list = Some f →
  get_item_info st (json_item_id json_dic) = Ok i →
  from_valid_json order st json_dic floor_list log =
    (Ok (Some {| item_id := json_item_id json_dic; floor := f;
                 starting_item := str_in "s" (json_flags json_dic);
                 blind := str_in "b" (json_flags json_dic);
                 was_rerolled := str_in "r" (json_flags json_dic);
                 info := i |}),
     log).
Proof.
  intros Ho Hfind Hg. rewrite (from_valid_json_found _ _ _ _ _ f) by done.
  destruct (lookup_cases st (json_item_id json_dic))
    as [(_ & _ & Hg') | [(_ & -> & _) | (_ & _ & k & Hg')]];
    try congruence.
  rewrite bind_Ok. cbn [negb]. rewrite init_flagstr by done.
  by rewrite Hg.
Qed.

Lemma from_valid_json_unknown (order : list (string * string)) (st : store)
    (json_dic : valid_json) (floor_list : list Floor.t)
    (log : list ErrorStuff.entry) (f : Floor.t) (new : gmap string val) :
  iteritems_order order →
  List.find (floor_matches json_dic) floor_list = Some f →
  contains_info st (json_item_id json_dic) = Ok false →
  items_info st !! "NEW" = Some new →
  from_valid_json order st json_dic floor_list log =
    (Ok (Some {| item_id := "NEW"; floor := f;
                 starting_item := str_in "s" (json_flags json_dic);
                 blind := str_in "b" (json_flags json_dic);
                 was_rerolled := str_in "r" (json_flags json_dic);
                 info := ItemInfo.__init__ new |}),
     log).
Proof.
  intros Ho Hfind Hc Hnew.
  rewrite (from_valid_json_found _ _ _ _ _ f) by done.
  rewrite Hc, bind_Ok. cbn [negb]. rewrite init_flagstr by done.
  unfold get_item_info, dict_getitem. cbn. by rewrite Hnew.
Qed.

(** X11: for a record whose [item_id] the tables know, reconstruction
    keeps the identifier and resolves the metadata of that very item, on
    the floor of the list that has the [floor_id] of the record; nothing
    is logged. *)
Theorem from_valid_json_known_item (order : list (string * string))
    (st : store) (json_dic : valid_json) (floor_list : list Floor.t)
    (log : list ErrorStuff.entry) (f : Floor.t) (i : ItemInfo.t) :
  iteritems_order order →
  NoDup (Floor.floor_id <$> floor_list) →
  f ∈ floor_list →
  Floor.floor_id f = json_floor_id json_dic →
  get_item_info st (json_item_id json_dic) = Ok i →
  from_valid_json order st json_dic floor_list log =
    (Ok (Some {| item_id := json_item_id json_dic; floor := f;
                 starting_item := str_in "s" (json_flags json_dic);
                 blind := str_in "b" (json_flags json_dic);
                 was_rerolled := str_in "r" (json_flags json_dic);
                 info := i |}),
     log).
Proof.
  intros Ho Hnd Hin Hid Hg. apply from_valid_json_known; [done | | done].
  by apply find_floor_unique.
Qed.

Lemma from_valid_json_known_item_witness :
  from_valid_json serialization_flags Examples.tables
    Examples.record_blind_d6 [Examples.F2; Examples.F1] [] =
    (Ok (Some Examples.blind_d6), []).
Proof.
  rewrite (from_valid_json_known_item serialization_flags Examples.tables
             Examples.record_blind_d6 [Examples.F2; Examples.F1] []
             Examples.F1 Examples.space_info).
  - reflexivity.
  - apply iteritems_order_literal.
  - refine (bool_decide_unpack _ _). vm_compute. exact I.
  - repeat constructor.
  - reflexivity.
  - reflexivity.
Defined.

(** X12: an item whose metadata is the one its identifier resolves to is
    restored exactly from the record of its [item_id], [floor_id] and
    [flags], given a floor list with distinct ids that holds its floor;
    nothing is logged. *)
Theorem from_valid_json_roundtrip (enc dec : list (string * string))
    (st : store) (self : t) (json_dic : valid_json)
    (floor_list : list Floor.t) (log : list ErrorStuff.entry) :
  iteritems_order enc →
  iteritems_order dec →
  get_item_info st (item_id self) = Ok (info self) →
  NoDup (Floor.floor_id <$> floor_list) →
  floor self ∈ floor_list →
  json_item_id json_dic = item_id self →
  json_floor_id json_dic = floor_id self →
  flags enc self = Ok (json_flags json_dic) →
  from_valid_json dec st json_dic floor_list log = (Ok (Some self), log).
Proof.
  intros Henc Hdec Hg Hnd Hin Hid Hfl Hflags.
  destruct (flags_valid enc self Henc) as (flagstr & Hf & Hb & Hr & Hs).
  rewrite Hflags in Hf. injection Hf as <-.
  rewrite (from_valid_json_known dec st json_dic floor_list log
             (floor self) (info self)); try done.
  - rewrite Hid, Hb, Hr, Hs. by destruct self.
  - by apply find_floor_unique.
  - by rewrite Hid.
Qed.

Lemma from_valid_json_roundtrip_witness :
  from_valid_json (reverse serialization_flags) Examples.tables
    Examples.record_blind_d6 [Examples.F1; Examples.F2] [] =
    (Ok (Some Examples.blind_d6), []).
Proof.
  apply (from_valid_json_roundtrip serialization_flags
           (reverse serialization_flags)).
  - apply iteritems_order_literal.
  - unfold iteritems_order. apply reverse_Permutation.
  - reflexivity.
  - refine (bool_decide_unpack _ _). vm_compute. exact I.
  - repeat constructor.
  - reflexivity.
  - reflexivity.
  - reflexivity.
Defined.

(** X13: with the placeholder ["NEW"] in the builtins table,
    reconstruction of a record with a non-empty [item_id] never raises:
    either a floor has the id of the record, the log is left alone and the
    item returned is on such a floor and carries the identifier of the
    record or ["NEW"]; or no floor has it, [None] is returned and one
    entry is logged. *)
Theorem from_valid_json_never_raises (order : list (string * string))
    (st : store) (json_dic : valid_json) (floor_list : list Floor.t)
    (log : list ErrorStuff.entry) (new : gmap string val) :
  iteritems_order order →
  json_item_id json_dic ≠ "" →
  items_info st !! "NEW" = Some new →
  (∃ self,
     from_valid_json order st json_dic floor_list log
       = (Ok (Some self), log) ∧
     floor self ∈ floor_list ∧
     floor_id self = json_floor_id json_dic ∧
     (item_id self = json_item_id json_dic ∨ item_id self = "NEW")) ∨
  ((∀ f, f ∈ floor_list → Floor.floor_id f ≠ json_floor_id json_dic) ∧
   from_valid_json order st json_dic floor_list log =
     (Ok None,
      ErrorStuff.log_error "ERROR: Floor id %s is not found in state list"
        [json_floor_id json_dic] log)).
Proof.
  intros Ho Hne Hnew.
  destruct (List.find (floor_matches json_dic) floor_list) as [f|] eqn:Hfind.
  - left. apply find_some in Hfind as Hf. destruct Hf as [Hin Hm].
    apply list_elem_of_In in Hin. apply String.eqb_eq in Hm.
    destruct (lookup_cases st (json_item_id json_dic))
      as [(? & _) | [(_ & Hc & i & Hg) | (_ & Hc & _)]]; [done | |].
    + eexists. split; [by apply from_valid_json_known |].
      cbn. split; [done |]. split; [done | by left].
    + eexists. split; [by eapply from_valid_json_unknown |].
      cbn. split; [done |]. split; [done | by right].
  - right. split.
    + intros f Hin Hid. apply list_elem_of_In in Hin.
      pose proof (find_none _ _ Hfind f Hin) as Hm.
      by apply String.eqb_neq in Hm.
    + unfold from_valid_json. by rewrite Hfind.
Qed.

Lemma from_valid_json_never_raises_witness :
  ∃ self,
    from_valid_json serialization_flags Examples.tables
      Examples.record_888888 [Examples.F1; Examples.F2] []
      = (Ok (Some self), []) ∧
    item_id self = "NEW".
Proof.
  assert (json_item_id Examples.record_888888 ≠ "") as Hne by discriminate.
  destruct (from_valid_json_never_raises serialization_flags
              Examples.tables Examples.record_888888
              [Examples.F1; Examples.F2] [] (<["name" := VStr "New Item"]> ∅)
              iteritems_order_literal Hne eq_refl)
    as [(self & Hr & _ & _ & Hid) | [Hno _]].
  - exists self. split; [exact Hr |].
    vm_compute in Hr. injection Hr as <-. reflexivity.
  - exfalso. apply (Hno Examples.F2); [| reflexivity].
    repeat constructor.
Defined.

(** X14: records with unknown identifiers all come back as the
    placeholder item: the items rebuilt from two such records are equal
    and have the same hash and the same metadata, whatever the two
    identifiers were. *)
Theorem unknown_items_collapse (order : list (string * string))
    (hash : string → Z) (st : store) (dic1 dic2 : valid_json)
    (floors1 floors2 : list Floor.t) (log : list ErrorStuff.entry)
    (f1 f2 : Floor.t) (new : gmap string val) :
  iteritems_order order →
  f1 ∈ floors1 → Floor.floor_id f1 = json_floor_id dic1 →
  f2 ∈ floors2 → Floor.floor_id f2 = json_floor_id dic2 →
  contains_info st (json_item_id dic1) = Ok false →
  contains_info st (json_item_id dic2) = Ok false →
  items_info st !! "NEW" = Some new →
  ∃ a b,
    from_valid_json order st dic1 floors1 log = (Ok (Some a), log) ∧
    from_valid_json order st dic2 floors2 log = (Ok (Some b), log) ∧
    __eq__ a (OItem b) = true ∧
    __hash__ hash a = __hash__ hash b ∧
    info a = info b.
Proof.
  intros Ho Hin1 Hid1 Hin2 Hid2 Hc1 Hc2 Hnew.
  destruct (find_floor_Some dic1 floors1 f1 Hin1 Hid1) as (g1 & Hf1 & _).
  destruct (find_floor_Some dic2 floors2 f2 Hin2 Hid2) as (g2 & Hf2 & _).
  eexists. eexists.
  split; [by eapply from_valid_json_unknown |].
  split; [by eapply from_valid_json_unknown |].
  done.
Qed.

Lemma unknown_items_collapse_witness :
  ∃ a b,
    from_valid_json serialization_flags Examples.tables
      Examples.record_999999 [Examples.F1] [] = (Ok (Some a), []) ∧
    from_valid_json serialization_flags Examples.tables
      Examples.record_888888 [Examples.F2] [] = (Ok (Some b), []) ∧
    __eq__ a (OItem b) = true.
Proof.
  destruct (unknown_items_collapse serialization_flags
              Examples.length_hash Examples.tables
              Examples.record_999999 Examples.record_888888
              [Examples.F1] [Examples.F2] [] Examples.F1 Examples.F2
              (<["name" := VStr "New Item"]> ∅))
    as (a & b & Ha & Hb & He & _).
  - apply iteritems_order_literal.
  - apply list_elem_of_singleton. reflexivity.
  - reflexivity.
  - apply list_elem_of_singleton. reflexivity.
  - reflexivity.
  - reflexivity.
  - reflexivity.
  - reflexivity.
  - exists a, b. split; [exact Ha |]. split; [exact Hb | exact He].
Defined.

(** *** Rerolling *)

Lemma rerolled_cases (self : t) :
  rerolled self =
    {| item_id := item_id self; floor := floor self;
       starting_item := starting_item self; blind := blind self;
       was_rerolled :=
         was_rerolled self ||
         negb (truthy (ItemInfo.getattr (info self) "space"));
       info := info self |}.
Proof.
  unfold rerolled. destruct self as [i f s b r m]. cbn [info].
  by destruct (truthy (ItemInfo.getattr m "space")), r.
Qed.

(** X15: rerolling twice is rerolling once, an item already rerolled is
    left as it is, and rerolling changes neither the identity of the item
    nor its description. *)
Theorem rerolled_idempotent (self : t) :
  rerolled (rerolled self) = rerolled self ∧
  (was_rerolled self = true → rerolled self = self) ∧
  __eq__ self (OItem (rerolled self)) = true ∧
  generate_item_description (rerolled self) =
    generate_item_description self.
Proof.
  rewrite !rerolled_cases. cbn [item_id info was_rerolled floor blind
                                starting_item].
  split; [| split; [| split]].
  - by rewrite <- orb_assoc, orb_diag.
  - intros H. destruct self as [i f s b r m]. cbn in *. by subst r.
  - unfold __eq__. cbn. apply String.eqb_refl.
  - reflexivity.
Qed.

Lemma rerolled_idempotent_witness :
  rerolled (setattr (Examples.item_with Examples.F1 ∅) "was_rerolled" true)
  = setattr (Examples.item_with Examples.F1 ∅) "was_rerolled" true.
Proof.
  destruct (rerolled_idempotent
              (setattr (Examples.item_with Examples.F1 ∅)
                 "was_rerolled" true)) as (_ & H & _).
  apply H. reflexivity.
Defined.

(** X16: the reroll is what [flags] writes out afterwards: the string has
    an ["r"] exactly when the item was rerolled before or is no spacebar
    item, and the other two characters are as the item had them. *)
Theorem rerolled_flags (order : list (string * string)) (self : t) :
  iteritems_order order →
  ∃ flagstr, flags order (rerolled self) = Ok flagstr ∧
    str_in "r" flagstr =
      was_rerolled self ||
      negb (truthy (ItemInfo.getattr (info self) "space")) ∧
    str_in "b" flagstr = blind self ∧
    str_in "s" flagstr = starting_item self.
Proof.
  intros H.
  destruct (flags_valid order (rerolled self) H)
    as (flagstr & Hf & Hb & Hr & Hs).
  exists flagstr. rewrite rerolled_cases in Hb, Hr, Hs. by cbn in *.
Qed.

Lemma rerolled_flags_witness :
  ∃ flagstr,
    flags serialization_flags (rerolled Examples.blind_d6) = Ok flagstr ∧
    str_in "r" flagstr = false ∧ str_in "b" flagstr = true.
Proof.
  destruct (rerolled_flags serialization_flags Examples.blind_d6
              iteritems_order_literal) as (flagstr & Hf & Hr & Hb & _).
  exists flagstr. split; [exact Hf |].
  split; [rewrite Hr | rewrite Hb]; reflexivity.
Defined.

(** *** The description, continued *)

(** X17: the description depends on nothing but the entries of the
    metadata under the twelve stats and the free text: two items whose
    records agree there have the same description, whatever their
    identifiers, floors, flags and other entries. *)
Theorem description_depends_on_fields (a b : t) :
  (∀ f, f ∈ Described.fields → info a !! f = info b !! f) →
  generate_item_description a = generate_item_description b.
Proof.
  intros H. unfold generate_item_description. cbn zeta.
  rewrite !getattr_field
    by (refine (bool_decide_unpack _ _); vm_compute; exact I).
  by rewrite !H by (refine (bool_decide_unpack _ _); vm_compute; exact I).
Qed.

Lemma description_depends_on_fields_witness :
  generate_item_description
    (Examples.item_with Examples.F2
       (<["name" := VStr "Onion"]> Examples.extra_info)) =
  generate_item_description
    (Examples.item_with Examples.F1 Examples.extra_info).
Proof.
  apply description_depends_on_fields. intros f Hf.
  vm_compute in Hf.
  repeat (apply elem_of_cons in Hf as [-> | Hf]); try reflexivity.
  by apply elem_of_nil in Hf.
Defined.

(** X18: a description is either empty or [": "] followed by a non-empty
    body, so it is never the bare prefix; and the only exception the
    method raises is [TypeError]. *)
Theorem description_shape (self : t) :
  (∀ desc, generate_item_description self = Ok desc →
     desc = "" ∨ ∃ body, body ≠ "" ∧ desc = ": " +:+ body) ∧
  (∀ e, generate_item_description self = Err e → e = TypeError).
Proof.
  rewrite description_refines.
  destruct (forallb _ _); split; try done.
  - intros desc [= <-]. unfold Described.description. cbn zeta.
    destruct (String.eqb _ "") eqn:E; [by left | right].
    apply String.eqb_neq in E. eauto.
  - by intros e [= <-].
Qed.

Lemma description_shape_witness :
  ∃ body, body ≠ "" ∧
    ": +1 dmg, +0.2 tears, Extra info" = ": " +:+ body.
Proof.
  destruct (description_shape
              (Examples.item_with Examples.F1 Examples.extra_info))
    as [H _].
  destruct (H ": +1 dmg, +0.2 tears, Extra info") as [H0 | H1].
  - by vm_compute.
  - discriminate H0.
  - exact H1.
Defined.

End ItemExtra.
